(** * MsgRobot.Wechat: a shallow embedding of the WeChat Work message clients

    The Python module [MsgRobot/Wechat.py] has one helper, [send], and two
    classes, [WechatGroupRobot] (webhook robot) and [WechatRobot] (application
    client with a cached access token).  The code is sequential and talks to
    three outside parties: the clock ([time.time]), the HTTP transport
    ([requests.post]) and the logger.  We model it with a state-and-exception
    monad over the receiver object and a record of the interactions made so
    far; the answers of the clock and of the network are taken from an
    arbitrary [Runtime]. *)

From Stdlib Require Import PrimFloat SpecFloat FloatOps.
From stdpp Require Import gmap strings list fin_maps.

#[local] Set Warnings "-register-all".
#[local] Open Scope string_scope.
#[local] Open Scope list_scope.

(** ** Python values

    The values that can come out of [json.loads] and that the configuration
    dictionary can hold.  A Python [str] is represented by the bytes of its
    UTF-8 encoding, so that [bytes(s, "utf-8")] is the string itself. *)

Inductive value : Type :=
| VNone
| VBool (b : bool)
| VInt (z : Z)
| VFloat (f : float)
| VStr (s : string)
| VList (l : list value)
| VDict (d : gmap string value).

(** The exceptions the module can meet.  All of them derive from
    [Exception], so that [except Exception] catches every one. *)
Inductive exn : Type :=
| KeyError (k : string)
| TypeError
| ValueError (msg : string)
| AssertionError
| OverflowError
| JSONDecodeError
| RequestException.

Inductive result (A : Type) : Type :=
| Ok (a : A)
| Raise (e : exn).
Arguments Ok {A} a.
Arguments Raise {A} e.

(** Truth value of an object ([bool(v)]). *)
Definition truthy (v : value) : bool :=
  match v with
  | VNone => false
  | VBool b => b
  | VInt z => negb (z =? 0)%Z
  | VFloat f => negb (f =? 0)%float
  | VStr s => negb (String.eqb s "")
  | VList l => match l with [] => false | _ :: _ => true end
  | VDict d => negb (Nat.eqb (size d) 0)
  end.

(** [v != 0] for the integer constant [0]. *)
Definition ne_zero (v : value) : bool :=
  match v with
  | VInt z => negb (z =? 0)%Z
  | VBool b => b
  | VFloat f => negb (f =? 0)%float
  | _ => true
  end.

(** [v[k]] for a string subscript [k]: only a dict accepts it. *)
Definition py_getitem (v : value) (k : string) : result value :=
  match v with
  | VDict d => match d !! k with Some x => Ok x | None => Raise (KeyError k) end
  | _ => Raise TypeError
  end.

(** [left + right] where [left] is a [str]. *)
Definition str_add (left : string) (right : value) : result string :=
  match right with
  | VStr s => Ok (left +:+ s)
  | _ => Raise TypeError
  end.

(** [sep.join(items)]: every item has to be a [str]. *)
Fixpoint strs_of (items : list value) : option (list string) :=
  match items with
  | [] => Some []
  | VStr s :: items' => cons s <$> strs_of items'
  | _ :: _ => None
  end.

Definition str_join (sep : string) (items : list value) : result string :=
  match strs_of items with
  | Some l => Ok (String.concat sep l)
  | None => Raise TypeError
  end.

(** [float(n)] for an [int]: round to nearest even, [OverflowError] beyond
    the range of a double. *)
Definition float_of_int (z : Z) : result float :=
  let f := SF2Prim (binary_normalize prec emax z 0 false) in
  if is_infinity f then Raise OverflowError else Ok f.

(** ** Requests, responses and the interaction record *)

(** The keyword arguments given to [requests.post]. *)
Record request : Type := Request {
  url : string;
  params : option (gmap string value);
  headers : option (gmap string value);
  json : option value;
  data : option string;
}.

(** What [requests.post] does: it raises, or it returns a response whose
    body is JSON text for [Some v] and anything else for [None]. *)
Inductive http_outcome : Type :=
| ConnectionFailed
| Response (body : option value).

Inductive level : Type := DEBUG | INFO | WARNING | ERROR | CRITICAL.

(** A call to the logger: the level and the arguments of the message
    ["fail to send http post: ..."], which are the keyword arguments of the
    call and the response. *)
Record log_record : Type := LogRecord {
  levelname : level;
  log_kwargs : request;
  log_response : value;
}.

Record world : Type := World {
  ticks : nat;               (* calls to time.time() so far *)
  posts : list request;      (* calls to requests.post, oldest first *)
  logs : list log_record;    (* calls to the logger, oldest first *)
}.

(** The outside of the program: the successive readings of the clock, the
    outcome of the n-th POST, and the library functions [float] (on a
    [str]), [str] (on a [float]) and [json.dumps]. *)
Class Runtime : Type := {
  time_time : nat -> float;
  requests_post : nat -> request -> http_outcome;
  float_of_str : string -> option float;
  str_of_float : float -> string;
  json_dumps : value -> string;
}.

(** ** The monad: state of the receiver object and of the world, exceptions *)

Record state (O : Type) : Type := State { self : O; io : world }.
Arguments State {O} self io.
Arguments self {O} s.
Arguments io {O} s.

Definition M (S A : Type) : Type := S -> result A * S.

Definition ret {S A} (a : A) : M S A := fun s => (Ok a, s).

Definition raise {S A} (e : exn) : M S A := fun s => (Raise e, s).

Definition bind {S A B} (m : M S A) (k : A -> M S B) : M S B :=
  fun s => match m s with
           | (Ok a, s') => k a s'
           | (Raise e, s') => (Raise e, s')
           end.

(** [try: body except Exception: handler] *)
Definition try_except {S A} (body : M S A) (handler : exn -> M S A) : M S A :=
  fun s => match body s with
           | (Ok a, s') => (Ok a, s')
           | (Raise e, s') => handler e s'
           end.

Definition lift {S A} (r : result A) : M S A := fun s => (r, s).

Declare Scope py_scope.
Delimit Scope py_scope with py.
Notation "x <- m ;; k" := (bind m (fun x => k))
  (at level 100, m at next level, right associativity) : py_scope.
Notation "m ;; k" := (bind m (fun _ => k))
  (at level 100, right associativity) : py_scope.
#[local] Open Scope py_scope.

Section Effects.
Context {rt : Runtime} {O : Type}.

Definition get_self : M (state O) O := fun s => (Ok (self s), s).

Definition set_self (o : O) : M (state O) unit :=
  fun s => (Ok tt, State o (io s)).

(** [time.time()] *)
Definition time_time_call : M (state O) float :=
  fun s =>
    let w := io s in
    (Ok (time_time (ticks w)),
     State (self s) (World (S (ticks w)) (posts w) (logs w))).

(** [requests.post] applied to the keyword arguments [kwargs] *)
Definition requests_post_call (kwargs : request) : M (state O) (option value) :=
  fun s =>
    let w := io s in
    let s' := State (self s) (World (ticks w) (posts w ++ [kwargs]) (logs w)) in
    match requests_post (length (posts w)) kwargs with
    | ConnectionFailed => (Raise RequestException, s')
    | Response body => (Ok body, s')
    end.

(** [response.json()] and [json.loads(response.text)] *)
Definition json_loads (body : option value) : M (state O) value :=
  match body with
  | Some v => ret v
  | None => raise JSONDecodeError
  end.

(** [logger.critical(...)] *)
Definition logger_critical (kwargs : request) (res : value) : M (state O) unit :=
  fun s =>
    let w := io s in
    (Ok tt,
     State (self s)
           (World (ticks w) (posts w) (logs w ++ [LogRecord CRITICAL kwargs res]))).

(** [float(v)] *)
Definition py_float (v : value) : result float :=
  match v with
  | VFloat f => Ok f
  | VInt z => float_of_int z
  | VBool b => Ok (if b then 1%float else 0%float)
  | VStr s => match float_of_str s with
              | Some f => Ok f
              | None => Raise (ValueError "could not convert string to float")
              end
  | _ => Raise TypeError
  end.

(** [def send]: the call sites pass keyword arguments only *)
Definition send (kwargs : request) : M (state O) value :=
  resp <- requests_post_call kwargs ;;
  res <- json_loads resp ;;
  errcode <- lift (py_getitem res "errcode") ;;
  (if ne_zero errcode then logger_critical kwargs res else ret tt) ;;
  ret res.
End Effects.

(** ** class WechatGroupRobot *)

Module WechatGroupRobot.
Record t : Type := Build { _key : string }.

Section Methods.
Context {rt : Runtime}.

Definition __init__ (key : string) : t := {| _key := key |}.

Definition send_msg (message : string)
    (mentioned_list mentioned_mobile_list : list string) : M (state t) value :=
  o <- get_self ;;
  let headers : gmap string value := {[ "Content-Type" := VStr "text/plain" ]} in
  let send_url :=
    "https://qyapi.weixin.qq.com/cgi-bin/webhook/send?key=" +:+ _key o in
  let send_data :=
    VDict {[ "msgtype" := VStr "text";
             "text" := VDict {[ "content" := VStr message;
                                "mentioned_list" := VList (VStr <$> mentioned_list);
                                "mentioned_mobile_list" :=
                                  VList (VStr <$> mentioned_mobile_list) ]} ]} in
  send {| url := send_url; params := None; headers := Some headers;
          json := Some send_data; data := None |}.

Definition send_md (message : string)
    (mentioned_list mentioned_mobile_list : list string) : M (state t) value :=
  o <- get_self ;;
  let headers : gmap string value := {[ "Content-Type" := VStr "text/plain" ]} in
  let send_url :=
    "https://qyapi.weixin.qq.com/cgi-bin/webhook/send?key=" +:+ _key o in
  let send_data :=
    VDict {[ "msgtype" := VStr "markdown";
             "markdown" := VDict {[ "content" := VStr message;
                                    "mentioned_list" := VList (VStr <$> mentioned_list);
                                    "mentioned_mobile_list" :=
                                      VList (VStr <$> mentioned_mobile_list) ]} ]} in
  send {| url := send_url; params := None; headers := Some headers;
          json := Some send_data; data := None |}.
End Methods.
End WechatGroupRobot.

(** ** class WechatRobot *)

Module WechatRobot.
(** The object holds a reference to the caller's configuration dict and
    updates it in place: [_config] is that dict. *)
Record t : Type := Build { _config : gmap string value }.

(** The [receiver] argument of [send_msg], by the two [isinstance] tests
    the method makes on it. *)
Inductive receiver_arg : Type :=
| RStr (s : string)              (* a str *)
| RIterable (items : list value) (* an Iterable that is not a str; [list(receiver)] is [items] *)
| RObject (v : value).           (* not an Iterable *)

(** The message of the [ValueError] of the constructor. *)
Definition missing_field (key : string) : string :=
  "config配置错误,缺少" +:+ key +:+ "字段".

(** The loop of the constructor over the required keys. *)
Fixpoint check_keys (config : gmap string value) (keys : list string) : result unit :=
  match keys with
  | [] => Ok tt
  | key :: keys' =>
      match config !! key with
      | None => Raise (ValueError (missing_field key))
      | Some _ => check_keys config keys'
      end
  end.

Definition required_keys : list string := ["corp_id"; "secret_id"; "agent_id"].

Definition __init__ (app_config : gmap string value) : result t :=
  match check_keys app_config required_keys with
  | Ok _ => Ok {| _config := app_config |}
  | Raise e => Raise e
  end.

(** [if isinstance(receiver, Iterable) and not isinstance(receiver, str):
        receiver = "|".join(list(receiver))] *)
Definition join_receiver (receiver : receiver_arg) : result value :=
  match receiver with
  | RIterable items =>
      match str_join "|" items with
      | Ok s => Ok (VStr s)
      | Raise e => Raise e
      end
  | RStr s => Ok (VStr s)
  | RObject v => Ok v
  end.

Section Methods.
Context {rt : Runtime}.

(** [self._config[key]] *)
Definition config_getitem (key : string) : M (state t) value :=
  o <- get_self ;;
  match _config o !! key with
  | Some v => ret v
  | None => raise (KeyError key)
  end.

(** [self._config[key] = v] *)
Definition config_setitem (key : string) (v : value) : M (state t) unit :=
  o <- get_self ;;
  set_self {| _config := <[key := v]> (_config o) |}.

(** [assert 0 < time.time() - float(self._config["token_time"]) < 7260
           and self._config["token"]] *)
Definition assert_token : M (state t) unit :=
  now <- time_time_call ;;
  token_time <- config_getitem "token_time" ;;
  acquired <- lift (py_float token_time) ;;
  let elapsed := (now - acquired)%float in
  cond <- (if (0 <? elapsed)%float then
             if (elapsed <? 7260)%float then config_getitem "token"
             else ret (VBool false)
           else ret (VBool false)) ;;
  if truthy cond then ret tt else raise AssertionError.

Definition _get_access_token : M (state t) value :=
  try_except assert_token (fun _ =>
    let url := "https://qyapi.weixin.qq.com/cgi-bin/gettoken" in
    corpid <- config_getitem "corp_id" ;;
    corpsecret <- config_getitem "secret_id" ;;
    let values : gmap string value :=
      {[ "corpid" := corpid; "corpsecret" := corpsecret ]} in
    req <- requests_post_call {| url := url; params := Some values; headers := None;
                                 json := None; data := None |} ;;
    data <- json_loads req ;;
    access_token <- lift (py_getitem data "access_token") ;;
    config_setitem "token" access_token ;;
    now <- time_time_call ;;
    config_setitem "token_time" (VStr (str_of_float now))) ;;
  config_getitem "token".

Definition send_msg (message : string) (receiver : receiver_arg) : M (state t) value :=
  receiver <- lift (join_receiver receiver) ;;
  token <- _get_access_token ;;
  send_url <- lift (str_add "https://qyapi.weixin.qq.com/cgi-bin/message/send?access_token="
                            token) ;;
  agentid <- config_getitem "agent_id" ;;
  let send_values :=
    VDict {[ "touser" := receiver;
             "msgtype" := VStr "text";
             "agentid" := agentid;
             "text" := VDict {[ "content" := VStr message ]};
             "safe" := VStr "0" ]} in
  (* bytes(json.dumps(send_values), "utf-8") *)
  let send_data := json_dumps send_values in
  send {| url := send_url; params := None; headers := None;
          json := None; data := Some send_data |}.
End Methods.
End WechatRobot.

(** ** Sequences of calls on one robot

    A caller holds one [WechatRobot] and calls its methods one after the
    other; only the state each call leaves behind matters to the next. *)

Section Calls.
Context {rt : Runtime}.

Inductive call : Type :=
| CallToken
| CallSend (message : string) (receiver : WechatRobot.receiver_arg).

Definition run_call (c : call) (st : state WechatRobot.t) : state WechatRobot.t :=
  match c with
  | CallToken => (WechatRobot._get_access_token st).2
  | CallSend message receiver => (WechatRobot.send_msg message receiver st).2
  end.

Definition run_calls (cs : list call) (st : state WechatRobot.t) : state WechatRobot.t :=
  fold_left (fun st c => run_call c st) cs st.
End Calls.

(** ** The specification's vocabulary

    The definitions of this section follow the words of the specification;
    the theorems below compare them with the code above. *)

Section Vocabulary.
Context {rt : Runtime}.

(** Elapsed time since acquisition: the current time minus the stored
    [token_time], when there is one and it reads as a number. *)
Definition elapsed (now : float) (config : gmap string value) : option float :=
  match config !! "token_time" with
  | Some token_time =>
      match py_float token_time with
      | Ok acquired => Some (now - acquired)%float
      | Raise _ => None
      end
  | None => None
  end.

(** The token is VALID when the elapsed time is strictly between 0 and
    7260 seconds and the token field is non-empty. *)
Definition token_valid (now : float) (config : gmap string value) : bool :=
  match elapsed now config with
  | Some e =>
      (0 <? e)%float && (e <? 7260)%float &&
      match config !! "token" with
      | Some token => truthy token
      | None => false
      end
  | None => false
  end.

(** The POST to the token endpoint carrying a corp id and a secret. *)
Definition gettoken_request (corpid corpsecret : value) : request :=
  {| url := "https://qyapi.weixin.qq.com/cgi-bin/gettoken";
     params := Some {[ "corpid" := corpid; "corpsecret" := corpsecret ]};
     headers := None; json := None; data := None |}.

(** The state after one more reading of the clock. *)
Definition ticked {O} (st : state O) : state O :=
  State (self st) (World (S (ticks (io st))) (posts (io st)) (logs (io st))).

(** The state after one more POST. *)
Definition posted {O} (rq : request) (st : state O) : state O :=
  State (self st) (World (ticks (io st)) (posts (io st) ++ [rq]) (logs (io st))).

(** The state after a token and its time of acquisition are stored. *)
Definition stored (token : value) (now : float) (st : state WechatRobot.t)
    : state WechatRobot.t :=
  State {| WechatRobot._config :=
             <["token_time" := VStr (str_of_float now)]>
               (<["token" := token]> (WechatRobot._config (self st))) |}
        (io st).

(** What a refresh does to a state, by the answer of the token endpoint:
    the exception of a failed call, of a body that is not JSON or of a
    missing [access_token], and otherwise the token, stored with the
    next reading of the clock. *)
Definition refresh_outcome (corpid corpsecret : value) (st : state WechatRobot.t)
    : result value * state WechatRobot.t :=
  let rq := gettoken_request corpid corpsecret in
  match requests_post (length (posts (io st))) rq with
  | ConnectionFailed => (Raise RequestException, posted rq (ticked st))
  | Response None => (Raise JSONDecodeError, posted rq (ticked st))
  | Response (Some data) =>
      match py_getitem data "access_token" with
      | Raise e => (Raise e, posted rq (ticked st))
      | Ok access_token =>
          (Ok access_token,
           stored access_token (time_time (S (ticks (io st))))
                  (ticked (posted rq (ticked st))))
      end
  end.
End Vocabulary.

(** The normalized receiver: a single string unchanged, the elements of an
    iterable of strings joined with ["|"]. *)
Inductive normalized : WechatRobot.receiver_arg -> string -> Prop :=
| normalized_str (s : string) :
    normalized (WechatRobot.RStr s) s
| normalized_iterable (l : list string) :
    normalized (WechatRobot.RIterable (VStr <$> l)) (String.concat "|" l).

(** ** A concrete runtime, for running the model

    The clock starts at 1700000000 and advances by one second per reading;
    the provider answers the token request with a token and every other
    request with [errcode] 0. *)
Module Demo.
(** The library functions [float], [str] and [json.dumps] are given here by
    tables over the few strings and numbers that occur in the runs below. *)
Definition clock (n : nat) : float :=
  (1700000000 + SF2Prim (binary_normalize prec emax (Z.of_nat n) 0 false))%float.

Definition token_reply : value :=
  VDict {[ "errcode" := VInt 0; "errmsg" := VStr "ok";
           "access_token" := VStr "TOKEN"; "expires_in" := VInt 7200 ]}.

Definition ok_reply : value :=
  VDict {[ "errcode" := VInt 0; "errmsg" := VStr "ok" ]}.

Definition error_reply : value :=
  VDict {[ "errcode" := VInt 93000; "errmsg" := VStr "invalid webhook url" ]}.

Definition odd_reply : value :=
  VDict {[ "errmsg" := VStr "ok" ]}.

Definition server (n : nat) (rq : request) : http_outcome :=
  if String.eqb (url rq) "https://qyapi.weixin.qq.com/cgi-bin/gettoken"
  then Response (Some token_reply)
  else if String.eqb (url rq) "https://qyapi.weixin.qq.com/cgi-bin/webhook/send?key=BAD"
  then Response (Some error_reply)
  else if String.eqb (url rq) "https://qyapi.weixin.qq.com/cgi-bin/webhook/send?key=ODD"
  then Response (Some odd_reply)
  else Response (Some ok_reply).

Definition parse (s : string) : option float :=
  if String.eqb s "1700000000.0" then Some 1700000000%float
  else if String.eqb s "1700000001.0" then Some 1700000001%float
  else if String.eqb s "1699990000.0" then Some 1699990000%float
  else None.

Definition show (f : float) : string :=
  if (f =? 1700000000)%float then "1700000000.0"
  else if (f =? 1700000001)%float then "1700000001.0"
  else "1700000002.0".

Definition dumps (v : value) : string :=
  match v with VDict _ => "{...}" | _ => "null" end.

Definition runtime : Runtime :=
  {| time_time := clock; requests_post := server;
     float_of_str := parse; str_of_float := show; json_dumps := dumps |}.

(** The same, with the network down. *)
Definition offline : Runtime :=
  {| time_time := clock; requests_post := fun _ _ => ConnectionFailed;
     float_of_str := parse; str_of_float := show; json_dumps := dumps |}.

(** The same, with a provider that answers every request with an error,
    with one that answers with an array, with one that writes its
    [errcode] as a string, and with one that hands out a number for a
    token. *)
Definition rejecting : Runtime :=
  {| time_time := clock; requests_post := fun _ _ => Response (Some error_reply);
     float_of_str := parse; str_of_float := show; json_dumps := dumps |}.

Definition listing : Runtime :=
  {| time_time := clock;
     requests_post := fun _ _ => Response (Some (VList [VInt 1; VInt 2]));
     float_of_str := parse; str_of_float := show; json_dumps := dumps |}.

Definition quoting : Runtime :=
  {| time_time := clock;
     requests_post := fun _ _ => Response (Some (VDict {[ "errcode" := VStr "0" ]}));
     float_of_str := parse; str_of_float := show; json_dumps := dumps |}.

Definition numeric : Runtime :=
  {| time_time := clock;
     requests_post := fun _ _ => Response (Some (VDict {[ "access_token" := VInt 7 ]}));
     float_of_str := parse; str_of_float := show; json_dumps := dumps |}.

Definition config : gmap string value :=
  {[ "corp_id" := VStr "corp"; "secret_id" := VStr "secret"; "agent_id" := VStr "1000002" ]}.

(** A configuration with a token acquired at 1700000000, and one with a
    token acquired 10000 seconds before that. *)
Definition cached : gmap string value :=
  <["token_time" := VStr "1700000000.0"]> (<["token" := VStr "OLD"]> config).

Definition expired : gmap string value :=
  <["token_time" := VStr "1699990000.0"]> (<["token" := VStr "OLD"]> config).

Definition start {O} (o : O) : state O := State o (World 0 [] []).

(** A robot over [config] after [n] readings of the clock. *)
Definition robot (config : gmap string value) (n : nat) : state WechatRobot.t :=
  State (WechatRobot.Build config) (World n [] []).

Definition webhook (key : string) : request :=
  {| url := "https://qyapi.weixin.qq.com/cgi-bin/webhook/send?key=" +:+ key;
     params := None; headers := None; json := Some (VStr "hi"); data := None |}.
End Demo.


(** ** Running the model *)

Example receivers_joined :
  WechatRobot.join_receiver (WechatRobot.RIterable [VStr "a"; VStr "b"]) = Ok (VStr "a|b").
Proof. reflexivity. Qed.

Example first_send_refreshes :
  let out := WechatRobot.send_msg (rt := Demo.runtime) "hi" (WechatRobot.RStr "a")
               (Demo.start (WechatRobot.Build Demo.config)) in
  out.1 = Ok Demo.ok_reply /\
  length (posts (io out.2)) = 2 /\
  WechatRobot._config (self out.2) !! "token" = Some (VStr "TOKEN") /\
  WechatRobot._config (self out.2) !! "token_time" = Some (VStr "1700000001.0").
Proof. vm_compute. repeat split; reflexivity. Qed.

Example same_reading_is_not_valid :
  token_valid (rt := Demo.runtime) 1700000000 Demo.cached = false /\
  token_valid (rt := Demo.runtime) 1700000001 Demo.cached = true /\
  token_valid (rt := Demo.runtime) 1700007259 Demo.cached = true /\
  token_valid (rt := Demo.runtime) 1700007260 Demo.cached = false.
Proof. repeat split; reflexivity. Qed.

Example second_send_reuses_token :
  let st1 := (WechatRobot.send_msg (rt := Demo.runtime) "hi" (WechatRobot.RStr "a")
               (Demo.start (WechatRobot.Build Demo.config))).2 in
  let out := WechatRobot.send_msg (rt := Demo.runtime) "again" (WechatRobot.RStr "a") st1 in
  out.1 = Ok Demo.ok_reply /\ length (posts (io out.2)) = 3.
Proof. vm_compute. repeat split; reflexivity. Qed.

(** ** Properties *)

Section Properties.
Context {rt : Runtime}.

Import WechatRobot.

Ltac run := unfold bind, ret, raise, lift, get_self, set_self; simpl.

(** *** The helper [send] *)

Lemma send_run {O} (kwargs : request) (st : state O) :
  send kwargs st =
  match requests_post (length (posts (io st))) kwargs with
  | ConnectionFailed => (Raise RequestException, posted kwargs st)
  | Response None => (Raise JSONDecodeError, posted kwargs st)
  | Response (Some res) =>
      match py_getitem res "errcode" with
      | Raise e => (Raise e, posted kwargs st)
      | Ok errcode =>
          if ne_zero errcode
          then (Ok res,
                State (self st)
                      (World (ticks (io st)) (posts (io st) ++ [kwargs])
                             (logs (io st) ++ [LogRecord CRITICAL kwargs res])))
          else (Ok res, posted kwargs st)
      end
  end.
Proof.
  unfold send, requests_post_call, json_loads, logger_critical, posted. run.
  destruct (requests_post _ _) as [|[res|]]; try reflexivity.
  simpl. destruct (py_getitem res "errcode") as [errcode|e]; try reflexivity.
  destruct (ne_zero errcode); reflexivity.
Qed.

Lemma send_self {O} (kwargs : request) (st : state O) :
  self (send kwargs st).2 = self st.
Proof.
  rewrite send_run.
  destruct (requests_post _ _) as [|[res|]]; try reflexivity.
  destruct (py_getitem res "errcode") as [errcode|e]; try reflexivity.
  destruct (ne_zero errcode); reflexivity.
Qed.

Lemma send_posts {O} (kwargs : request) (st : state O) :
  posts (io (send kwargs st).2) = posts (io st) ++ [kwargs].
Proof.
  rewrite send_run.
  destruct (requests_post _ _) as [|[res|]]; try reflexivity.
  destruct (py_getitem res "errcode") as [errcode|e]; try reflexivity.
  destruct (ne_zero errcode); reflexivity.
Qed.

(** *** The assertion on the cached token *)

Lemma assert_token_valid (st : state t) :
  token_valid (time_time (ticks (io st))) (_config (self st)) = true ->
  assert_token st = (Ok tt, ticked st).
Proof.
  unfold assert_token, token_valid, elapsed, config_getitem, time_time_call, ticked.
  run.
  destruct (_config (self st) !! "token_time") as [token_time|]; simpl; [|discriminate].
  destruct (py_float token_time) as [acquired|e]; simpl; [|discriminate].
  destruct (0 <? _)%float; simpl; [|discriminate].
  destruct (_ <? 7260)%float; simpl; [|discriminate].
  destruct (_config (self st) !! "token") as [token|]; simpl; [|discriminate].
  destruct (truthy token); [reflexivity|discriminate].
Qed.

Lemma assert_token_invalid (st : state t) :
  token_valid (time_time (ticks (io st))) (_config (self st)) = false ->
  exists e, assert_token st = (Raise e, ticked st).
Proof.
  unfold assert_token, token_valid, elapsed, config_getitem, time_time_call, ticked.
  run.
  destruct (_config (self st) !! "token_time") as [token_time|]; simpl; [|eauto].
  destruct (py_float token_time) as [acquired|e]; simpl; [|eauto].
  destruct (0 <? _)%float; simpl; [|eauto].
  destruct (_ <? 7260)%float; simpl; [|eauto].
  destruct (_config (self st) !! "token") as [token|]; simpl; [|eauto].
  destruct (truthy token); [discriminate|eauto].
Qed.

Lemma token_valid_has_token (now : float) (config : gmap string value) :
  token_valid now config = true ->
  exists token, config !! "token" = Some token /\ truthy token = true.
Proof.
  unfold token_valid. destruct (elapsed now config); [|discriminate].
  destruct (config !! "token") as [token|].
  - intros Hv. exists token. split; [reflexivity|].
    destruct (truthy token); [reflexivity|].
    rewrite andb_false_r in Hv. discriminate.
  - rewrite andb_false_r. discriminate.
Qed.

(** *** [_get_access_token], case by case *)

Lemma get_access_token_valid (st : state t) :
  token_valid (time_time (ticks (io st))) (_config (self st)) = true ->
  exists token,
    _config (self st) !! "token" = Some token /\
    truthy token = true /\
    _get_access_token st = (Ok token, ticked st).
Proof.
  intros Hv. destruct (token_valid_has_token _ _ Hv) as (token & Htok & Htr).
  exists token. split; [exact Htok|]. split; [exact Htr|].
  unfold _get_access_token, try_except, bind at 1.
  rewrite (assert_token_valid st Hv).
  unfold config_getitem. run. rewrite Htok. reflexivity.
Qed.

Lemma get_access_token_refresh (st : state t) (corpid corpsecret : value) :
  _config (self st) !! "corp_id" = Some corpid ->
  _config (self st) !! "secret_id" = Some corpsecret ->
  token_valid (time_time (ticks (io st))) (_config (self st)) = false ->
  _get_access_token st = refresh_outcome corpid corpsecret st.
Proof.
  intros Hcorp Hsecret Hv.
  destruct (assert_token_invalid st Hv) as [e He].
  unfold _get_access_token, try_except, bind at 1.
  rewrite He.
  unfold refresh_outcome, config_getitem, config_setitem, requests_post_call,
    json_loads, time_time_call, posted, ticked, stored.
  run. rewrite Hcorp. simpl. rewrite Hsecret. simpl.
  fold (gettoken_request corpid corpsecret).
  destruct (requests_post _ _) as [|[data|]]; try reflexivity.
  simpl. destruct (py_getitem data "access_token") as [access_token|e']; [|reflexivity].
  simpl. rewrite lookup_insert_ne by discriminate. rewrite lookup_insert_eq.
  reflexivity.
Qed.

Lemma refresh_outcome_posts (corpid corpsecret : value) (st : state t) :
  posts (io (refresh_outcome corpid corpsecret st).2) =
  posts (io st) ++ [gettoken_request corpid corpsecret].
Proof.
  unfold refresh_outcome.
  destruct (requests_post _ _) as [|[data|]]; try reflexivity.
  destruct (py_getitem data "access_token"); reflexivity.
Qed.

Lemma snoc_neq {A} (l : list A) (x : A) : l ++ [x] <> l.
Proof.
  intros Heq. apply (f_equal length) in Heq.
  rewrite length_app in Heq. simpl in Heq. lia.
Qed.

(** Whatever the configuration holds, [_get_access_token] writes to the
    keys [token] and [token_time] only. *)
Lemma get_access_token_frame (st : state t) (key : string) :
  key <> "token" -> key <> "token_time" ->
  _config (self (_get_access_token st).2) !! key = _config (self st) !! key.
Proof.
  intros Hk1 Hk2.
  destruct (token_valid (time_time (ticks (io st))) (_config (self st))) eqn:Hv.
  - destruct (get_access_token_valid st Hv) as (token & _ & _ & Hrun).
    rewrite Hrun. reflexivity.
  - destruct (assert_token_invalid st Hv) as [e He].
    unfold _get_access_token, try_except, bind at 1. rewrite He.
    unfold config_getitem, config_setitem, requests_post_call, json_loads,
      time_time_call, ticked.
    run.
    destruct (_config (self st) !! "corp_id"); simpl; [|reflexivity].
    destruct (_config (self st) !! "secret_id"); simpl; [|reflexivity].
    destruct (requests_post _ _) as [|[data|]]; try reflexivity.
    simpl. destruct (py_getitem data "access_token"); simpl; [|reflexivity].
    rewrite lookup_insert_ne by discriminate. rewrite lookup_insert_eq. simpl.
    rewrite !lookup_insert_ne by congruence. reflexivity.
Qed.

(** An exception out of [_get_access_token] leaves the object as it was. *)
Lemma get_access_token_raise (st st' : state t) (e : exn) :
  _get_access_token st = (Raise e, st') -> self st' = self st.
Proof.
  destruct (token_valid (time_time (ticks (io st))) (_config (self st))) eqn:Hv.
  - destruct (get_access_token_valid st Hv) as (token & _ & _ & Hrun).
    rewrite Hrun. discriminate.
  - destruct (assert_token_invalid st Hv) as [e0 He].
    unfold _get_access_token, try_except, bind at 1. rewrite He.
    unfold config_getitem, config_setitem, requests_post_call, json_loads,
      time_time_call, ticked.
    run.
    destruct (_config (self st) !! "corp_id"); simpl;
      [|intros [= _ <-]; reflexivity].
    destruct (_config (self st) !! "secret_id"); simpl;
      [|intros [= _ <-]; reflexivity].
    destruct (requests_post _ _) as [|[data|]]; try (intros [= _ <-]; reflexivity).
    simpl. destruct (py_getitem data "access_token"); simpl;
      [|intros [= _ <-]; reflexivity].
    rewrite lookup_insert_ne by discriminate. rewrite lookup_insert_eq. simpl.
    discriminate.
Qed.

(** *** [send_msg], step by step *)

Lemma send_msg_run (message : string) (receiver : receiver_arg) (st : state t) :
  send_msg message receiver st =
  match join_receiver receiver with
  | Raise e => (Raise e, st)
  | Ok touser =>
      match _get_access_token st with
      | (Raise e, st1) => (Raise e, st1)
      | (Ok token, st1) =>
          match str_add "https://qyapi.weixin.qq.com/cgi-bin/message/send?access_token="
                        token with
          | Raise e => (Raise e, st1)
          | Ok send_url =>
              match _config (self st1) !! "agent_id" with
              | None => (Raise (KeyError "agent_id"), st1)
              | Some agentid =>
                  send {| url := send_url; params := None; headers := None; json := None;
                          data := Some (json_dumps
                                   (VDict {[ "touser" := touser;
                                             "msgtype" := VStr "text";
                                             "agentid" := agentid;
                                             "text" := VDict {[ "content" := VStr message ]};
                                             "safe" := VStr "0" ]})) |} st1
              end
          end
      end
  end.
Proof.
  unfold send_msg, bind at 1. unfold lift at 1.
  destruct (join_receiver receiver) as [touser|e]; [|reflexivity].
  unfold bind at 1.
  destruct (_get_access_token st) as [[token|e] st1]; [|reflexivity].
  unfold bind at 1. unfold lift at 1.
  destruct (str_add _ token) as [send_url|e]; [|reflexivity].
  unfold bind at 1. unfold config_getitem. run.
  destruct (_config (self st1) !! "agent_id"); reflexivity.
Qed.

(** C1: under the constructor's guarantee that the corp id and the secret
    are configured, [_get_access_token] makes no POST exactly when the
    token is VALID (elapsed time strictly between 0 and 7260 and a
    non-empty token), in which case it returns the cached token and leaves
    the configuration alone; in every other state it performs the refresh:
    it makes the POST to the token endpoint and does what [refresh_outcome]
    says, so that an answer with an [access_token] is returned and stored
    under [token], with the time read after the answer under [token_time]. *)
Theorem token_valid_iff_refresh_skipped (st : state t) (corpid corpsecret : value) :
  _config (self st) !! "corp_id" = Some corpid ->
  _config (self st) !! "secret_id" = Some corpsecret ->
  let now := time_time (ticks (io st)) in
  let out := _get_access_token st in
  let rq := gettoken_request corpid corpsecret in
  (token_valid now (_config (self st)) = true <->
     posts (io out.2) = posts (io st)) /\
  (token_valid now (_config (self st)) = false <->
     posts (io out.2) = posts (io st) ++ [rq]) /\
  (token_valid now (_config (self st)) = true ->
     exists token, _config (self st) !! "token" = Some token /\
                   out = (Ok token, ticked st)) /\
  (token_valid now (_config (self st)) = false ->
     out = refresh_outcome corpid corpsecret st /\
     forall data access_token,
       requests_post (length (posts (io st))) rq = Response (Some data) ->
       py_getitem data "access_token" = Ok access_token ->
       let acquired := time_time (S (ticks (io st))) in
       out = (Ok access_token,
              stored access_token acquired (ticked (posted rq (ticked st)))) /\
       _config (self out.2) !! "token" = Some access_token /\
       _config (self out.2) !! "token_time" = Some (VStr (str_of_float acquired)) /\
       ticks (io out.2) = S (S (ticks (io st)))).
Proof.
  intros Hcorp Hsecret now out rq. subst now out rq.
  destruct (token_valid _ _) eqn:Hv.
  - destruct (get_access_token_valid st Hv) as (token & Htok & _ & Hrun).
    rewrite Hrun. simpl. split; [|split; [|split]].
    + split; reflexivity || trivial.
    + split; [discriminate|]. intros Heq. symmetry in Heq.
      destruct (snoc_neq _ _ Heq).
    + intros _. exists token. split; [exact Htok|reflexivity].
    + discriminate.
  - rewrite (get_access_token_refresh st corpid corpsecret Hcorp Hsecret Hv).
    rewrite refresh_outcome_posts. split; [|split; [|split]].
    + split; [discriminate|]. intros Heq. destruct (snoc_neq _ _ Heq).
    + split; reflexivity || trivial.
    + discriminate.
    + intros _. split; [reflexivity|].
      intros data access_token Hanswer Hget acquired.
      unfold refresh_outcome. rewrite Hanswer, Hget. simpl.
      split; [reflexivity|]. split; [|split; [|reflexivity]].
      * rewrite lookup_insert_ne by discriminate. apply lookup_insert_eq.
      * apply lookup_insert_eq.
Qed.

Lemma send_url_not_gettoken (token : string) :
  "https://qyapi.weixin.qq.com/cgi-bin/message/send?access_token=" +:+ token <>
  "https://qyapi.weixin.qq.com/cgi-bin/gettoken".
Proof. simpl. discriminate. Qed.

(** C2: in a state where the token is not VALID, a send call (whose
    receiver can be joined) makes exactly one POST to the token endpoint,
    its first, with the configured corp id and secret; when the endpoint
    answers with an [access_token], [_get_access_token] returns it and the
    configuration holds it under [token], with the time read after the
    answer under [token_time]. *)
Theorem send_refreshes_token (st : state t) (message : string)
    (receiver : receiver_arg) (touser corpid corpsecret : value) :
  join_receiver receiver = Ok touser ->
  _config (self st) !! "corp_id" = Some corpid ->
  _config (self st) !! "secret_id" = Some corpsecret ->
  token_valid (time_time (ticks (io st))) (_config (self st)) = false ->
  let rq := gettoken_request corpid corpsecret in
  let out := send_msg message receiver st in
  (exists rest,
     posts (io out.2) = posts (io st) ++ rq :: rest /\
     Forall (fun rq' => url rq' <> url rq) rest) /\
  (forall data access_token,
     requests_post (length (posts (io st))) rq = Response (Some data) ->
     py_getitem data "access_token" = Ok access_token ->
     let now := time_time (S (ticks (io st))) in
     _get_access_token st =
       (Ok access_token, stored access_token now (ticked (posted rq (ticked st)))) /\
     _config (self out.2) =
       <["token_time" := VStr (str_of_float now)]>
         (<["token" := access_token]> (_config (self st))) /\
     _config (self out.2) !! "token" = Some access_token).
Proof.
  intros Hjoin Hcorp Hsecret Hv rq out. subst out.
  rewrite send_msg_run, Hjoin.
  rewrite (get_access_token_refresh st corpid corpsecret Hcorp Hsecret Hv).
  split.
  - pose proof (refresh_outcome_posts corpid corpsecret st) as Hposts. fold rq in Hposts.
    destruct (refresh_outcome corpid corpsecret st) as [[token|e] st1];
      simpl in Hposts; [|exists []; split; [exact Hposts|constructor]].
    destruct token as [| | | |token| |];
      try (exists []; split; [exact Hposts|constructor]).
    unfold str_add.
    destruct (_config (self st1) !! "agent_id") as [agentid|];
      [|exists []; split; [exact Hposts|constructor]].
    eexists [_]. rewrite send_posts, Hposts, <- app_assoc.
    split; [reflexivity|]. constructor; [|constructor].
    apply send_url_not_gettoken.
  - intros data access_token Hanswer Hget now.
    unfold refresh_outcome. fold rq. rewrite Hanswer, Hget.
    split; [reflexivity|].
    assert (Hcfg : forall o : result value * state t,
              self o.2 = self (stored access_token now (ticked (posted rq (ticked st)))) ->
              _config (self o.2) =
                <["token_time" := VStr (str_of_float now)]>
                  (<["token" := access_token]> (_config (self st))) /\
              _config (self o.2) !! "token" = Some access_token).
    { intros o ->. simpl. split; [reflexivity|].
      rewrite lookup_insert_ne by discriminate. apply lookup_insert_eq. }
    destruct (str_add _ access_token); [|apply Hcfg; reflexivity].
    destruct (_config _ !! "agent_id"); [|apply Hcfg; reflexivity].
    apply Hcfg. apply send_self.
Qed.

(** C9: when the token is not VALID and the refresh fails (the POST
    raises, the body is not JSON, or reading [access_token] from it
    raises), that exception comes out of [_get_access_token] and the
    configuration is the one before the call: neither [token] nor
    [token_time] is written. *)
Theorem failed_refresh_keeps_config (st : state t) (corpid corpsecret : value)
    (e : exn) :
  _config (self st) !! "corp_id" = Some corpid ->
  _config (self st) !! "secret_id" = Some corpsecret ->
  token_valid (time_time (ticks (io st))) (_config (self st)) = false ->
  let answer := requests_post (length (posts (io st)))
                              (gettoken_request corpid corpsecret) in
  (answer = ConnectionFailed /\ e = RequestException) \/
  (answer = Response None /\ e = JSONDecodeError) \/
  (exists data, answer = Response (Some data) /\
                py_getitem data "access_token" = Raise e) ->
  exists st', _get_access_token st = (Raise e, st') /\
              _config (self st') = _config (self st).
Proof.
  intros Hcorp Hsecret Hv answer Hfail. subst answer.
  rewrite (get_access_token_refresh st corpid corpsecret Hcorp Hsecret Hv).
  unfold refresh_outcome.
  destruct Hfail as [[-> ->]|[[-> ->]|(data & -> & ->)]];
    eexists; split; reflexivity.
Qed.

Lemma join_receiver_normalized (receiver : receiver_arg) (touser : string) :
  normalized receiver touser -> join_receiver receiver = Ok (VStr touser).
Proof.
  intros [s|l]; [reflexivity|].
  unfold join_receiver, str_join.
  assert (Hl : strs_of (VStr <$> l) = Some l).
  { induction l as [|s l IH]; [reflexivity|].
    change (strs_of (VStr <$> s :: l)) with (cons s <$> strs_of (VStr <$> l)).
    rewrite IH. reflexivity. }
  rewrite Hl. reflexivity.
Qed.

(** C4: when the token stage of a send call yields the token [token], the
    call makes one more POST, to the message endpoint with that token;
    its body is the JSON text of an object whose [touser] is the
    normalized receiver (a string unchanged, the strings of an iterable
    joined with ["|"]), whose [msgtype] is ["text"], whose [agentid] is
    the configured agent id, whose [text] holds the message as [content]
    and whose [safe] is ["0"]. *)
Theorem send_msg_body (st st1 : state t) (message : string)
    (receiver : receiver_arg) (touser token : string) (agentid : value) :
  normalized receiver touser ->
  _config (self st) !! "agent_id" = Some agentid ->
  _get_access_token st = (Ok (VStr token), st1) ->
  let out := send_msg message receiver st in
  exists (rq : request) (body : gmap string value),
    posts (io out.2) = posts (io st1) ++ [rq] /\
    url rq = "https://qyapi.weixin.qq.com/cgi-bin/message/send?access_token=" +:+ token /\
    data rq = Some (json_dumps (VDict body)) /\
    json rq = None /\
    body !! "touser" = Some (VStr touser) /\
    body !! "msgtype" = Some (VStr "text") /\
    body !! "agentid" = Some agentid /\
    body !! "text" = Some (VDict {[ "content" := VStr message ]}) /\
    body !! "safe" = Some (VStr "0") /\
    dom body = {[ "touser"; "msgtype"; "agentid"; "text"; "safe" ]}.
Proof.
  intros Hnorm Hagent Hrun out. subst out.
  rewrite send_msg_run, (join_receiver_normalized _ _ Hnorm), Hrun.
  assert (Hagent1 : _config (self st1) !! "agent_id" = Some agentid).
  { rewrite <- Hagent.
    change st1 with (Ok (VStr token), st1).2. rewrite <- Hrun.
    apply get_access_token_frame; discriminate. }
  unfold str_add. rewrite Hagent1.
  eexists _, _. rewrite send_posts. simpl.
  split; [reflexivity|]. split; [reflexivity|]. split; [reflexivity|].
  split; [reflexivity|].
  repeat (split; [reflexivity|]).
  rewrite !dom_insert_L, dom_singleton_L. set_solver.
Qed.

(** C10: the constructor keeps the configuration it is given;
    [_get_access_token] and [send_msg] leave every key of the
    configuration other than [token] and [token_time] as it was, whether
    they return or raise; the methods of the group robot leave its key as
    it was. *)
Theorem config_frame :
  (forall (app_config : gmap string value) (o : t),
     __init__ app_config = Ok o -> _config o = app_config) /\
  (forall (st : state t) (key : string),
     key <> "token" -> key <> "token_time" ->
     _config (self (_get_access_token st).2) !! key = _config (self st) !! key) /\
  (forall (st : state t) (message : string) (receiver : receiver_arg) (key : string),
     key <> "token" -> key <> "token_time" ->
     _config (self (send_msg message receiver st).2) !! key = _config (self st) !! key) /\
  (forall (st : state WechatGroupRobot.t) (message : string) (L L' : list string),
     self (WechatGroupRobot.send_msg message L L' st).2 = self st /\
     self (WechatGroupRobot.send_md message L L' st).2 = self st).
Proof.
  split; [|split; [|split]].
  - intros app_config o. unfold __init__.
    destruct (check_keys _ _); [|discriminate]. intros [= <-]. reflexivity.
  - intros st key Hk1 Hk2. apply get_access_token_frame; assumption.
  - intros st message receiver key Hk1 Hk2.
    rewrite send_msg_run.
    destruct (join_receiver receiver); [|reflexivity].
    pose proof (get_access_token_frame st key Hk1 Hk2) as Hframe.
    destruct (_get_access_token st) as [[token|e] st1]; simpl in Hframe;
      [|exact Hframe].
    destruct (str_add _ token); [|exact Hframe].
    destruct (_config (self st1) !! "agent_id"); [|exact Hframe].
    rewrite send_self. exact Hframe.
  - intros st message L L'. split.
    + unfold WechatGroupRobot.send_msg. run. apply send_self.
    + unfold WechatGroupRobot.send_md. run. apply send_self.
Qed.
(** C3: when the parsed response has an integer [errcode], [send]
    returns that response as it is, whatever the code; it logs one entry
    at the critical level when the code is not 0 and none when it is. *)
Theorem send_returns_response {O} (st : state O) (kwargs : request)
    (res : value) (errcode : Z) :
  requests_post (length (posts (io st))) kwargs = Response (Some res) ->
  py_getitem res "errcode" = Ok (VInt errcode) ->
  let out := send kwargs st in
  out.1 = Ok res /\
  (errcode <> 0%Z <->
     logs (io out.2) = logs (io st) ++ [LogRecord CRITICAL kwargs res]) /\
  (errcode = 0%Z <-> logs (io out.2) = logs (io st)).
Proof.
  intros Hanswer Hcode out. subst out.
  rewrite send_run, Hanswer, Hcode. simpl.
  destruct (Z.eqb_spec errcode 0) as [->|Hne]; simpl.
  - split; [reflexivity|]. split.
    + split; [congruence|]. intros Heq. symmetry in Heq.
      destruct (snoc_neq _ _ Heq).
    + split; reflexivity || trivial.
  - split; [reflexivity|]. split.
    + split; reflexivity || trivial.
    + split; [congruence|]. intros Heq. destruct (snoc_neq _ _ Heq).
Qed.

(** C8, as amended: when the parsed response is an object without
    [errcode], [send] raises [KeyError] for that key; when it is not an
    object at all (an array, a string, a number, a boolean, null), [send]
    raises [TypeError]; either way it raises instead of returning, and
    whenever [send] returns a response, the response has an [errcode]. *)
Theorem send_without_errcode {O} (st : state O) (kwargs : request) :
  (forall d : gmap string value,
     requests_post (length (posts (io st))) kwargs = Response (Some (VDict d)) ->
     d !! "errcode" = None ->
     (send kwargs st).1 = Raise (KeyError "errcode")) /\
  (forall res : value,
     requests_post (length (posts (io st))) kwargs = Response (Some res) ->
     (forall d, res <> VDict d) ->
     (send kwargs st).1 = Raise TypeError) /\
  (forall res : value,
     (send kwargs st).1 = Ok res ->
     requests_post (length (posts (io st))) kwargs = Response (Some res) /\
     exists errcode, py_getitem res "errcode" = Ok errcode).
Proof.
  rewrite send_run. split; [|split].
  - intros d -> Hnone. simpl. rewrite Hnone. reflexivity.
  - intros res -> Hres. destruct res; try reflexivity. destruct (Hres d eq_refl).
  - intros res.
    destruct (requests_post _ _) as [|[res'|]]; try discriminate.
    destruct (py_getitem res' "errcode") as [errcode|e] eqn:Hcode; [|discriminate].
    destruct (ne_zero errcode); intros [= <-]; eauto.
Qed.

(** C5: the text method of the group robot makes one POST, to the webhook
    of its key, whose JSON body has [msgtype] ["text"] and under [text] the
    message as [content] and the two mention lists. *)
Theorem group_text_body (st : state WechatGroupRobot.t) (message : string)
    (mentioned_list mentioned_mobile_list : list string) :
  let out := WechatGroupRobot.send_msg message mentioned_list mentioned_mobile_list st in
  exists (rq : request) (body text : gmap string value),
    posts (io out.2) = posts (io st) ++ [rq] /\
    url rq = "https://qyapi.weixin.qq.com/cgi-bin/webhook/send?key=" +:+
             WechatGroupRobot._key (self st) /\
    json rq = Some (VDict body) /\
    data rq = None /\
    body !! "msgtype" = Some (VStr "text") /\
    body !! "text" = Some (VDict text) /\
    text !! "content" = Some (VStr message) /\
    text !! "mentioned_list" = Some (VList (VStr <$> mentioned_list)) /\
    text !! "mentioned_mobile_list" = Some (VList (VStr <$> mentioned_mobile_list)).
Proof.
  intros out. subst out. unfold WechatGroupRobot.send_msg. run.
  eexists _, _, _. rewrite send_posts.
  repeat (split; [reflexivity|]). reflexivity.
Qed.

(** C6: the markdown method of the group robot makes one POST, to the
    webhook of its key, whose JSON body has [msgtype] ["markdown"] and
    under [markdown] the message as [content]. *)
Theorem group_markdown_body (st : state WechatGroupRobot.t) (message : string)
    (mentioned_list mentioned_mobile_list : list string) :
  let out := WechatGroupRobot.send_md message mentioned_list mentioned_mobile_list st in
  exists (rq : request) (body markdown : gmap string value),
    posts (io out.2) = posts (io st) ++ [rq] /\
    url rq = "https://qyapi.weixin.qq.com/cgi-bin/webhook/send?key=" +:+
             WechatGroupRobot._key (self st) /\
    json rq = Some (VDict body) /\
    data rq = None /\
    body !! "msgtype" = Some (VStr "markdown") /\
    body !! "markdown" = Some (VDict markdown) /\
    markdown !! "content" = Some (VStr message) /\
    markdown !! "mentioned_list" = Some (VList (VStr <$> mentioned_list)) /\
    markdown !! "mentioned_mobile_list" =
      Some (VList (VStr <$> mentioned_mobile_list)).
Proof.
  intros out. subst out. unfold WechatGroupRobot.send_md. run.
  eexists _, _, _. rewrite send_posts.
  repeat (split; [reflexivity|]). reflexivity.
Qed.

Lemma required_keys_elem (key : string) :
  key ∈ required_keys <-> key = "corp_id" \/ key = "secret_id" \/ key = "agent_id".
Proof.
  unfold required_keys. rewrite !elem_of_cons, elem_of_nil. tauto.
Qed.


(** The VALID state in the words of the claim. *)
Lemma token_valid_spec (now : float) (config : gmap string value) :
  token_valid now config = true <->
  exists token_time acquired token,
    config !! "token_time" = Some token_time /\
    py_float token_time = Ok acquired /\
    (0 <? now - acquired)%float = true /\
    (now - acquired <? 7260)%float = true /\
    config !! "token" = Some token /\
    truthy token = true.
Proof.
  unfold token_valid, elapsed. split.
  - destruct (config !! "token_time") as [token_time|]; [|discriminate].
    destruct (py_float token_time) as [acquired|] eqn:Hfloat; [|discriminate].
    destruct (config !! "token") as [token|].
    + intros [[H1 H2]%andb_true_iff H3]%andb_true_iff.
      exists token_time, acquired, token. auto 10.
    + rewrite andb_false_r. discriminate.
  - intros (token_time & acquired & token & H1 & H2 & H3 & H4 & H5 & H6).
    rewrite H1, H2, H3, H4, H5, H6. reflexivity.
Qed.

Lemma truthy_str (s : string) : truthy (VStr s) = true <-> s <> "".
Proof.
  simpl. destruct (String.eqb_spec s ""); simpl; split; congruence.
Qed.
(** A parsed response that is not an object cannot be subscripted by a
    string at all: [send] raises [TypeError]. *)
Lemma send_non_object {O} (st : state O) (kwargs : request) (res : value) :
  requests_post (length (posts (io st))) kwargs = Response (Some res) ->
  (forall d, res <> VDict d) ->
  (send kwargs st).1 = Raise TypeError.
Proof.
intros Hanswer Hres. rewrite send_run, Hanswer.
destruct res; try reflexivity. destruct (Hres d eq_refl).
Qed.

(** A failed POST or a body that is not JSON comes out of [send] as the
    exception of the transport or of the parser. *)
Lemma send_transport_failure {O} (st : state O) (kwargs : request) :
  (requests_post (length (posts (io st))) kwargs = ConnectionFailed ->
   (send kwargs st).1 = Raise RequestException) /\
  (requests_post (length (posts (io st))) kwargs = Response None ->
   (send kwargs st).1 = Raise JSONDecodeError).
Proof.
rewrite send_run. split; intros ->; reflexivity.
Qed.
End Properties.

(** ** The theorems at work on the concrete runtime *)

(** A token cached one second ago is used without a POST; a token cached
    10000 seconds ago is refreshed: the new one is returned and stored. *)
Lemma token_valid_iff_refresh_skipped_witness :
  let st := Demo.robot Demo.cached 1 in
  let st' := Demo.robot Demo.expired 0 in
  let out' := WechatRobot._get_access_token (rt := Demo.runtime) st' in
  token_valid (rt := Demo.runtime) 1700000001 Demo.cached = true /\
  posts (io (WechatRobot._get_access_token (rt := Demo.runtime) st).2) = [] /\
  token_valid (rt := Demo.runtime) 1700000000 Demo.expired = false /\
  posts (io out'.2) = [gettoken_request (VStr "corp") (VStr "secret")] /\
  out'.1 = Ok (VStr "TOKEN") /\
  WechatRobot._config (self out'.2) !! "token" = Some (VStr "TOKEN") /\
  WechatRobot._config (self out'.2) !! "token_time" = Some (VStr "1700000001.0").
Proof.
  intros st st' out'.
  destruct (token_valid_iff_refresh_skipped (rt := Demo.runtime) st
              (VStr "corp") (VStr "secret") eq_refl eq_refl) as (Hvalid & _ & _).
  destruct (token_valid_iff_refresh_skipped (rt := Demo.runtime) st'
              (VStr "corp") (VStr "secret") eq_refl eq_refl)
    as (_ & Hexpired & _ & Hrefresh).
  split; [reflexivity|]. split; [apply Hvalid; reflexivity|].
  split; [reflexivity|]. split; [apply Hexpired; reflexivity|].
  destruct (Hrefresh eq_refl) as [_ Hstore].
  destruct (Hstore Demo.token_reply (VStr "TOKEN") eq_refl eq_refl)
    as (Hout & Htoken & Htime & _).
  split; [exact (f_equal fst Hout)|]. split; [exact Htoken|exact Htime].
Defined.

(** The first send of a fresh robot fetches the token and stores it. *)
Lemma send_refreshes_token_witness :
  let st := Demo.robot Demo.config 0 in
  let out := WechatRobot.send_msg (rt := Demo.runtime) "hi"
               (WechatRobot.RIterable [VStr "a"; VStr "b"]) st in
  (exists rest,
     posts (io out.2) = gettoken_request (VStr "corp") (VStr "secret") :: rest /\
     Forall (fun rq' => url rq' <> "https://qyapi.weixin.qq.com/cgi-bin/gettoken") rest) /\
  WechatRobot._config (self out.2) =
    <["token_time" := VStr "1700000001.0"]> (<["token" := VStr "TOKEN"]> Demo.config) /\
  WechatRobot._config (self out.2) !! "token" = Some (VStr "TOKEN").
Proof.
  intros st out.
  destruct (send_refreshes_token (rt := Demo.runtime) st "hi"
              (WechatRobot.RIterable [VStr "a"; VStr "b"])
              (VStr "a|b") (VStr "corp") (VStr "secret")
              eq_refl eq_refl eq_refl eq_refl) as [Hposts Hstore].
  split; [exact Hposts|].
  destruct (Hstore Demo.token_reply (VStr "TOKEN") eq_refl eq_refl) as (_ & Hcfg & Htok).
  split; [exact Hcfg|exact Htok].
Defined.

(** A webhook that answers [errcode] 93000: the answer is returned and
    logged. *)
Lemma send_returns_response_witness :
  let st := Demo.start (WechatGroupRobot.Build "BAD") in
  let out := send (rt := Demo.runtime) (Demo.webhook "BAD") st in
  out.1 = Ok Demo.error_reply /\
  logs (io out.2) = [LogRecord CRITICAL (Demo.webhook "BAD") Demo.error_reply].
Proof.
  intros st out.
  destruct (send_returns_response (rt := Demo.runtime) st (Demo.webhook "BAD")
              Demo.error_reply 93000 eq_refl eq_refl) as (Hres & Hlog & _).
  split; [exact Hres|]. apply Hlog. discriminate.
Defined.

(** Sending to the receivers [a] and [b]. *)
Lemma send_msg_body_witness :
  let st := Demo.robot Demo.config 0 in
  let out := WechatRobot.send_msg (rt := Demo.runtime) "hi"
               (WechatRobot.RIterable [VStr "a"; VStr "b"]) st in
  exists (rq : request) (body : gmap string value),
    posts (io out.2) = [gettoken_request (VStr "corp") (VStr "secret"); rq] /\
    url rq = "https://qyapi.weixin.qq.com/cgi-bin/message/send?access_token=TOKEN" /\
    data rq = Some (Demo.dumps (VDict body)) /\
    body !! "touser" = Some (VStr "a|b") /\
    body !! "agentid" = Some (VStr "1000002").
Proof.
  intros st out.
  destruct (send_msg_body (rt := Demo.runtime) st
              (WechatRobot._get_access_token (rt := Demo.runtime) st).2 "hi"
              (WechatRobot.RIterable (VStr <$> ["a"; "b"])) "a|b" "TOKEN" (VStr "1000002")
              (normalized_iterable ["a"; "b"]) eq_refl eq_refl)
    as (rq & body & Hposts & Hurl & Hdata & _ & Htouser & _ & Hagent & _).
  exists rq, body.
  split; [exact Hposts|]. split; [exact Hurl|]. split; [exact Hdata|].
  split; [exact Htouser|exact Hagent].
Defined.


(** A webhook whose answer is an object without [errcode], and one whose
    answer is an array. *)
Lemma send_without_errcode_witness :
  let st := Demo.start (WechatGroupRobot.Build "ODD") in
  (send (rt := Demo.runtime) (Demo.webhook "ODD") st).1 = Raise (KeyError "errcode") /\
  (send (rt := Demo.listing) (Demo.webhook "ODD") st).1 = Raise TypeError.
Proof.
  intros st.
  destruct (send_without_errcode (rt := Demo.runtime) st (Demo.webhook "ODD"))
    as (Hkey & _ & _).
  destruct (send_without_errcode (rt := Demo.listing) st (Demo.webhook "ODD"))
    as (_ & Htype & _).
  split.
  - apply (Hkey {[ "errmsg" := VStr "ok" ]}); reflexivity.
  - apply (Htype (VList [VInt 1; VInt 2])); [reflexivity|discriminate].
Defined.

(** The claim as it was worded fails on an answer that is an array: the
    parsed JSON has no [errcode], and [send] raises [TypeError], not
    [KeyError]. *)
Lemma send_without_errcode_counterexample :
  let st := Demo.start (WechatGroupRobot.Build "ODD") in
  let res := VList [VInt 1; VInt 2] in
  requests_post (Runtime := Demo.listing) (length (posts (io st))) (Demo.webhook "ODD") =
    Response (Some res) /\
  (forall errcode, py_getitem res "errcode" <> Ok errcode) /\
  (send (rt := Demo.listing) (Demo.webhook "ODD") st).1 = Raise TypeError /\
  (send (rt := Demo.listing) (Demo.webhook "ODD") st).1 <> Raise (KeyError "errcode").
Proof.
  intros st res. split; [reflexivity|]. split; [discriminate|].
  split; [reflexivity|discriminate].
Qed.

(** With the network down, the expired token stays in the configuration. *)
Lemma failed_refresh_keeps_config_witness :
  let st := Demo.robot Demo.expired 0 in
  exists st',
    WechatRobot._get_access_token (rt := Demo.offline) st = (Raise RequestException, st') /\
    WechatRobot._config (self st') = Demo.expired.
Proof.
  intros st.
  apply (failed_refresh_keeps_config (rt := Demo.offline) st (VStr "corp") (VStr "secret")
           RequestException eq_refl eq_refl eq_refl).
  left. split; reflexivity.
Defined.

(** A send that refreshes the token keeps the three configured fields. *)
Lemma config_frame_witness :
  let st := Demo.robot Demo.expired 0 in
  let out := WechatRobot.send_msg (rt := Demo.runtime) "hi" (WechatRobot.RStr "a") st in
  WechatRobot._config (self out.2) !! "corp_id" = Some (VStr "corp") /\
  WechatRobot._config (self out.2) !! "secret_id" = Some (VStr "secret") /\
  WechatRobot._config (self out.2) !! "agent_id" = Some (VStr "1000002").
Proof.
  intros st out.
  destruct (config_frame (rt := Demo.runtime)) as (_ & _ & Hsend & _).
  subst out.
  rewrite !Hsend by discriminate.
  repeat split; reflexivity.
Defined.

(** ** Further properties of the code *)

Section Further.
Context {rt : Runtime}.

Import WechatRobot.

(** *** How [send] fails *)

Lemma py_getitem_raise (v : value) (k : string) (e : exn) :
  py_getitem v k = Raise e -> e = TypeError \/ e = KeyError k.
Proof.
  destruct v; simpl; try (intros [= <-]; auto).
  destruct (d !! k); [discriminate|]. intros [= <-]. auto.
Qed.

Lemma send_raise_inv {O} (st : state O) (kwargs : request) (e : exn) :
  (send kwargs st).1 = Raise e ->
  (send kwargs st).2 = posted kwargs st /\
  (e = RequestException \/ e = JSONDecodeError \/ e = TypeError \/
   e = KeyError "errcode").
Proof.
  rewrite send_run.
  destruct (requests_post _ _) as [|[res|]]; try (intros [= <-]; auto).
  destruct (py_getitem res "errcode") as [errcode|e'] eqn:Hcode.
  - destruct (ne_zero errcode); discriminate.
  - intros [= <-]. split; [reflexivity|].
    destruct (py_getitem_raise _ _ _ Hcode) as [-> | ->]; auto.
Qed.

(** X1: when [send] raises, the POST has been made all the same, nothing has
    been logged, and the exception is one of four: the transport's, the
    JSON parser's, [TypeError] for a response that is not an object, or
    [KeyError] for [errcode]; each of the four arises from the answer it
    is named after. *)
Theorem send_failure_modes {O} (st : state O) (kwargs : request) (e : exn) :
  (send kwargs st).1 = Raise e ->
  let answer := requests_post (length (posts (io st))) kwargs in
  posts (io (send kwargs st).2) = posts (io st) ++ [kwargs] /\
  logs (io (send kwargs st).2) = logs (io st) /\
  ticks (io (send kwargs st).2) = ticks (io st) /\
  ((e = RequestException /\ answer = ConnectionFailed) \/
   (e = JSONDecodeError /\ answer = Response None) \/
   (e = TypeError /\ exists res, answer = Response (Some res) /\ forall d, res <> VDict d) \/
   (e = KeyError "errcode" /\
    exists d, answer = Response (Some (VDict d)) /\ d !! "errcode" = None)).
Proof.
  intros Hraise answer. subst answer.
  destruct (send_raise_inv st kwargs e Hraise) as [-> _].
  repeat (split; [reflexivity|]).
  rewrite send_run in Hraise.
  destruct (requests_post _ _) as [|[res|]]; try (injection Hraise as <-; auto).
  destruct res as [| | | | | |d]; simpl in Hraise;
    try (injection Hraise as <-; right; right; left; split; [reflexivity|];
         eexists; split; [reflexivity|]; discriminate).
  destruct (d !! "errcode") as [errcode|] eqn:Hd.
  - destruct (ne_zero errcode); discriminate.
  - injection Hraise as <-. right. right. right. eauto.
Qed.

Lemma ne_zero_false (v : value) :
  ne_zero v = false <->
  v = VInt 0 \/ v = VBool false \/ exists f, v = VFloat f /\ (f =? 0)%float = true.
Proof.
  split.
  - destruct v as [|b|z|f| | |]; simpl; try discriminate.
    + intros ->. auto.
    + destruct (Z.eqb_spec z 0) as [->|]; [auto|discriminate].
    + intros Hf%negb_false_iff. eauto.
  - intros [-> | [-> | (f & -> & Hf)]]; simpl; [reflexivity|reflexivity|].
    rewrite Hf. reflexivity.
Qed.

(** X2: whatever the type of [errcode], the response that has one is returned;
    it goes unlogged only when [errcode] is the integer 0, [False] or a
    float equal to zero, so that an [errcode] such as the string ["0"] or
    [None] is logged as a failure. *)
Theorem send_any_errcode {O} (st : state O) (kwargs : request) (res errcode : value) :
  requests_post (length (posts (io st))) kwargs = Response (Some res) ->
  py_getitem res "errcode" = Ok errcode ->
  (send kwargs st).1 = Ok res /\
  (logs (io (send kwargs st).2) = logs (io st) <->
     errcode = VInt 0 \/ errcode = VBool false \/
     exists f, errcode = VFloat f /\ (f =? 0)%float = true) /\
  (logs (io (send kwargs st).2) = logs (io st) \/
   logs (io (send kwargs st).2) = logs (io st) ++ [LogRecord CRITICAL kwargs res]).
Proof.
  intros Hanswer Hcode. rewrite send_run, Hanswer, Hcode.
  rewrite <- ne_zero_false.
  destruct (ne_zero errcode); simpl.
  - split; [reflexivity|]. split; [|auto].
    split; [|discriminate]. intros Heq. destruct (snoc_neq _ _ Heq).
  - split; [reflexivity|]. split; [|auto]. split; reflexivity || trivial.
Qed.

(** *** The cached token over several calls *)

Lemma token_invalid_without_token (now : float) (config : gmap string value) :
  match config !! "token" with
  | Some token => truthy token = false
  | None => True
  end ->
  token_valid now config = false.
Proof.
  unfold token_valid. destruct (elapsed now config); [|reflexivity].
  destruct (config !! "token") as [token|].
  - intros ->. apply andb_false_r.
  - intros _. apply andb_false_r.
Qed.

(** X3: a token that is absent or falsy (the empty string, [None], 0) is never
    used: whatever [token_time] and the clock say, the next call asks the
    token endpoint again. *)
Theorem falsy_token_is_refreshed (st : state t) (corpid corpsecret : value) :
  _config (self st) !! "corp_id" = Some corpid ->
  _config (self st) !! "secret_id" = Some corpsecret ->
  match _config (self st) !! "token" with
  | Some token => truthy token = false
  | None => True
  end ->
  _get_access_token st = refresh_outcome corpid corpsecret st /\
  posts (io (_get_access_token st).2) =
    posts (io st) ++ [gettoken_request corpid corpsecret].
Proof.
  intros Hcorp Hsecret Htoken.
  pose proof (token_invalid_without_token (time_time (ticks (io st))) _ Htoken) as Hv.
  rewrite (get_access_token_refresh st corpid corpsecret Hcorp Hsecret Hv).
  split; [reflexivity|apply refresh_outcome_posts].
Qed.

(** X4: a token fetched by one call is used by the next ones: when [str] and
    [float] round-trip the time of acquisition and the token is truthy, a
    later call on the same configuration, made at a time strictly between 0
    and 7260 seconds after the acquisition, returns that token, makes no
    POST and writes nothing. *)
Theorem refreshed_token_is_reused (st st2 : state t)
    (corpid corpsecret data access_token : value) :
  _config (self st) !! "corp_id" = Some corpid ->
  _config (self st) !! "secret_id" = Some corpsecret ->
  token_valid (time_time (ticks (io st))) (_config (self st)) = false ->
  requests_post (length (posts (io st))) (gettoken_request corpid corpsecret) =
    Response (Some data) ->
  py_getitem data "access_token" = Ok access_token ->
  truthy access_token = true ->
  let acquired := time_time (S (ticks (io st))) in
  float_of_str (str_of_float acquired) = Some acquired ->
  self st2 = self (_get_access_token st).2 ->
  (0 <? time_time (ticks (io st2)) - acquired)%float = true ->
  (time_time (ticks (io st2)) - acquired <? 7260)%float = true ->
  _get_access_token st2 = (Ok access_token, ticked st2).
Proof.
  intros Hcorp Hsecret Hv Hanswer Hget Htruthy acquired Hround Hself Hpos Hlt.
  rewrite (get_access_token_refresh st corpid corpsecret Hcorp Hsecret Hv) in Hself.
  unfold refresh_outcome in Hself. rewrite Hanswer, Hget in Hself. simpl in Hself.
  assert (Htime : _config (self st2) !! "token_time" = Some (VStr (str_of_float acquired))).
  { rewrite Hself. simpl. apply lookup_insert_eq. }
  assert (Htok : _config (self st2) !! "token" = Some access_token).
  { rewrite Hself. simpl. rewrite lookup_insert_ne by discriminate.
    apply lookup_insert_eq. }
  assert (Hvalid : token_valid (time_time (ticks (io st2))) (_config (self st2)) = true).
  { apply token_valid_spec.
    exists (VStr (str_of_float acquired)), acquired, access_token.
    repeat (split; [assumption|]).
    split; [simpl; rewrite Hround; reflexivity|].
    repeat (split; [assumption|]). assumption. }
  destruct (get_access_token_valid st2 Hvalid) as (token & Htok' & _ & Hrun).
  rewrite Hrun. congruence.
Qed.

(** [_get_access_token] never logs: whatever the token endpoint answers,
    its [errcode] included, goes unreported. *)
Lemma get_access_token_logs (st : state t) :
  logs (io (_get_access_token st).2) = logs (io st).
Proof.
  destruct (token_valid (time_time (ticks (io st))) (_config (self st))) eqn:Hv.
  - destruct (get_access_token_valid st Hv) as (token & _ & _ & Hrun).
    rewrite Hrun. reflexivity.
  - destruct (assert_token_invalid st Hv) as [e He].
    unfold _get_access_token, try_except, bind at 1. rewrite He.
    unfold config_getitem, config_setitem, requests_post_call, json_loads,
      time_time_call, ticked, bind, ret, raise, lift, get_self, set_self.
    simpl.
    destruct (_config (self st) !! "corp_id"); simpl; [|reflexivity].
    destruct (_config (self st) !! "secret_id"); simpl; [|reflexivity].
    destruct (requests_post _ _) as [|[data|]]; try reflexivity.
    simpl. destruct (py_getitem data "access_token"); simpl; [|reflexivity].
    rewrite lookup_insert_ne by discriminate. rewrite lookup_insert_eq. reflexivity.
Qed.

(** *** [send_msg], path by path *)

Lemma strs_of_not_str (items : list value) :
  Exists (fun v => forall s, v <> VStr s) items -> strs_of items = None.
Proof.
  induction 1 as [v items Hv|v items _ IH].
  - destruct v; try reflexivity. destruct (Hv s eq_refl).
  - destruct v; try reflexivity. simpl. rewrite IH. reflexivity.
Qed.

(** X5: an iterable receiver with an item that is not a [str] stops the call
    at the join: [TypeError] is raised before the clock is read or
    anything is posted, logged or written. *)
Theorem send_msg_bad_receiver (st : state t) (message : string) (items : list value) :
  Exists (fun v => forall s, v <> VStr s) items ->
  send_msg message (RIterable items) st = (Raise TypeError, st).
Proof.
  intros Hbad. rewrite send_msg_run. unfold join_receiver, str_join.
  rewrite (strs_of_not_str items Hbad). reflexivity.
Qed.

(** X6: with a VALID token that is a [str], a send makes exactly one POST, to
    the message endpoint with the cached token, reads the clock once and
    leaves the configuration as it was; its result is the one of [send]. *)
Theorem send_msg_with_valid_token (st : state t) (message : string)
    (receiver : receiver_arg) (touser agentid : value) (token : string) :
  join_receiver receiver = Ok touser ->
  token_valid (time_time (ticks (io st))) (_config (self st)) = true ->
  _config (self st) !! "token" = Some (VStr token) ->
  _config (self st) !! "agent_id" = Some agentid ->
  let rq :=
    {| url := "https://qyapi.weixin.qq.com/cgi-bin/message/send?access_token=" +:+ token;
       params := None; headers := None; json := None;
       data := Some (json_dumps
                 (VDict {[ "touser" := touser; "msgtype" := VStr "text";
                           "agentid" := agentid;
                           "text" := VDict {[ "content" := VStr message ]};
                           "safe" := VStr "0" ]})) |} in
  send_msg message receiver st = send rq (ticked st) /\
  posts (io (send_msg message receiver st).2) = posts (io st) ++ [rq] /\
  ticks (io (send_msg message receiver st).2) = S (ticks (io st)) /\
  self (send_msg message receiver st).2 = self st.
Proof.
  intros Hjoin Hv Htok Hagent rq.
  destruct (get_access_token_valid st Hv) as (token' & Htok' & _ & Hrun).
  assert (token' = VStr token) as -> by congruence.
  assert (Hrun' : send_msg message receiver st = send rq (ticked st)).
  { rewrite send_msg_run, Hjoin, Hrun. unfold str_add. simpl.
    rewrite Hagent. reflexivity. }
  rewrite Hrun'. split; [reflexivity|].
  split; [exact (send_posts rq (ticked st))|].
  split; [|exact (send_self rq (ticked st))].
  rewrite send_run.
  destruct (requests_post _ _) as [|[res|]]; try reflexivity.
  destruct (py_getitem res "errcode") as [errcode|]; [|reflexivity].
  destruct (ne_zero errcode); reflexivity.
Qed.

(** X7: a cached token that is VALID but not a [str] (a number, say) makes
    every send fail with [TypeError] without any POST: the token is
    neither used nor fetched again while it stays in the window. *)
Theorem send_msg_token_not_str (st : state t) (message : string)
    (receiver : receiver_arg) (touser token : value) :
  join_receiver receiver = Ok touser ->
  token_valid (time_time (ticks (io st))) (_config (self st)) = true ->
  _config (self st) !! "token" = Some token ->
  (forall s, token <> VStr s) ->
  send_msg message receiver st = (Raise TypeError, ticked st).
Proof.
  intros Hjoin Hv Htok Hnot.
  destruct (get_access_token_valid st Hv) as (token' & Htok' & _ & Hrun).
  assert (token' = token) as -> by congruence.
  rewrite send_msg_run, Hjoin, Hrun.
  destruct token; try reflexivity. destruct (Hnot s eq_refl).
Qed.

(** X8: a refresh that fails stops the send: the exception of the refresh
    comes out, the POST to the token endpoint is the only one made, and
    nothing is logged or written. *)
Theorem send_msg_failed_refresh (st : state t) (message : string)
    (receiver : receiver_arg) (touser corpid corpsecret : value) (e : exn) :
  join_receiver receiver = Ok touser ->
  _config (self st) !! "corp_id" = Some corpid ->
  _config (self st) !! "secret_id" = Some corpsecret ->
  token_valid (time_time (ticks (io st))) (_config (self st)) = false ->
  let rq := gettoken_request corpid corpsecret in
  let answer := requests_post (length (posts (io st))) rq in
  (answer = ConnectionFailed /\ e = RequestException) \/
  (answer = Response None /\ e = JSONDecodeError) \/
  (exists data, answer = Response (Some data) /\
                py_getitem data "access_token" = Raise e) ->
  send_msg message receiver st = (Raise e, posted rq (ticked st)).
Proof.
  intros Hjoin Hcorp Hsecret Hv rq answer Hfail. subst answer rq.
  rewrite send_msg_run, Hjoin.
  rewrite (get_access_token_refresh st corpid corpsecret Hcorp Hsecret Hv).
  unfold refresh_outcome.
  destruct Hfail as [[-> ->]|[[-> ->]|(data & -> & ->)]]; reflexivity.
Qed.

(** X9: failures are silent: [_get_access_token] never logs, whatever the
    token endpoint answers, and whenever [send_msg] raises, nothing has
    been logged; only a response that is returned can leave a log entry. *)
Theorem failures_are_not_logged (st : state t) (message : string)
    (receiver : receiver_arg) :
  logs (io (_get_access_token st).2) = logs (io st) /\
  (forall e, (send_msg message receiver st).1 = Raise e ->
             logs (io (send_msg message receiver st).2) = logs (io st)).
Proof.
  split; [apply get_access_token_logs|]. intros e.
  rewrite send_msg_run.
  destruct (join_receiver receiver); [|reflexivity].
  pose proof (get_access_token_logs st) as Hlogs.
  destruct (_get_access_token st) as [[token|e'] st1]; simpl in Hlogs;
    [|intros _; exact Hlogs].
  destruct (str_add _ token); [|intros _; exact Hlogs].
  destruct (_config (self st1) !! "agent_id"); [|intros _; exact Hlogs].
  intros Hraise. destruct (send_raise_inv _ _ _ Hraise) as [-> _].
  exact Hlogs.
Qed.

(** X10: a token that is not a [str] is stored all the same: the send that
    fetched it raises [TypeError] after the configuration has been
    written, and makes no POST to the message endpoint. *)
Theorem send_msg_stores_before_failing (st : state t) (message : string)
    (receiver : receiver_arg) (touser corpid corpsecret data access_token : value) :
  join_receiver receiver = Ok touser ->
  _config (self st) !! "corp_id" = Some corpid ->
  _config (self st) !! "secret_id" = Some corpsecret ->
  token_valid (time_time (ticks (io st))) (_config (self st)) = false ->
  let rq := gettoken_request corpid corpsecret in
  requests_post (length (posts (io st))) rq = Response (Some data) ->
  py_getitem data "access_token" = Ok access_token ->
  (forall s, access_token <> VStr s) ->
  send_msg message receiver st =
    (Raise TypeError,
     stored access_token (time_time (S (ticks (io st)))) (ticked (posted rq (ticked st)))).
Proof.
  intros Hjoin Hcorp Hsecret Hv rq Hanswer Hget Hnot. subst rq.
  rewrite send_msg_run, Hjoin.
  rewrite (get_access_token_refresh st corpid corpsecret Hcorp Hsecret Hv).
  unfold refresh_outcome. rewrite Hanswer, Hget.
  destruct access_token; try reflexivity. destruct (Hnot s eq_refl).
Qed.

(** *** The configured fields over the life of a robot *)

Lemma send_msg_frame (st : state t) (message : string) (receiver : receiver_arg)
    (key : string) :
  key <> "token" -> key <> "token_time" ->
  _config (self (send_msg message receiver st).2) !! key = _config (self st) !! key.
Proof.
  intros Hk1 Hk2. rewrite send_msg_run.
  destruct (join_receiver receiver); [|reflexivity].
  pose proof (get_access_token_frame st key Hk1 Hk2) as Hframe.
  destruct (_get_access_token st) as [[token|e] st1]; simpl in Hframe;
    [|exact Hframe].
  destruct (str_add _ token); [|exact Hframe].
  destruct (_config (self st1) !! "agent_id"); [|exact Hframe].
  rewrite send_self. exact Hframe.
Qed.

Lemma run_calls_frame (cs : list call) (st : state t) (key : string) :
  key <> "token" -> key <> "token_time" ->
  _config (self (run_calls cs st)) !! key = _config (self st) !! key.
Proof.
  intros Hk1 Hk2. revert st.
  induction cs as [|c cs IH]; intros st; [reflexivity|].
  change (run_calls (c :: cs) st) with (run_calls cs (run_call c st)).
  rewrite IH. destruct c as [|message receiver]; simpl.
  - apply get_access_token_frame; assumption.
  - apply send_msg_frame; assumption.
Qed.

Lemma check_keys_ok (config : gmap string value) :
  check_keys config required_keys = Ok tt <->
  is_Some (config !! "corp_id") /\ is_Some (config !! "secret_id") /\
  is_Some (config !! "agent_id").
Proof.
  unfold required_keys, check_keys. split.
  - destruct (config !! "corp_id"); [|discriminate].
    destruct (config !! "secret_id"); [|discriminate].
    destruct (config !! "agent_id"); [|discriminate].
    intros _. eauto.
  - intros ([? ->] & [? ->] & [? ->]). reflexivity.
Qed.

(** X11: a robot that the constructor accepted stays well configured: after
    any sequence of [_get_access_token] and [send_msg] calls, whatever
    they returned or raised, the three required fields hold the values
    they were constructed with and the constructor's check still passes. *)
Theorem constructed_robot_stays_configured (app_config : gmap string value) (o : t)
    (w : world) (cs : list call) :
  __init__ app_config = Ok o ->
  let st' := run_calls cs (State o w) in
  (forall key, key ∈ required_keys ->
     _config (self st') !! key = app_config !! key /\
     is_Some (_config (self st') !! key)) /\
  check_keys (_config (self st')) required_keys = Ok tt.
Proof.
  intros Hinit st'. unfold __init__ in Hinit.
  destruct (check_keys app_config required_keys) as [[]|] eqn:Hcheck; [|discriminate].
  injection Hinit as <-.
  assert (Hsame : forall key, key ∈ required_keys ->
            _config (self st') !! key = app_config !! key).
  { intros key Hin. subst st'. rewrite run_calls_frame; [reflexivity| |];
      apply required_keys_elem in Hin; destruct Hin as [-> | [-> | ->]]; discriminate. }
  apply check_keys_ok in Hcheck. destruct Hcheck as (H1 & H2 & H3).
  split.
  - intros key Hin. split; [apply Hsame; exact Hin|].
    rewrite (Hsame key Hin).
    apply required_keys_elem in Hin. destruct Hin as [-> | [-> | ->]]; assumption.
  - apply check_keys_ok.
    rewrite !Hsame by (apply required_keys_elem; auto). auto.
Qed.

Lemma join_receiver_raise (receiver : receiver_arg) (e : exn) :
  join_receiver receiver = Raise e -> e = TypeError.
Proof.
  destruct receiver as [s|items|v]; simpl; try discriminate.
  unfold str_join. destruct (strs_of items); [discriminate|].
  intros [= <-]. reflexivity.
Qed.

(** X12: with the three required fields configured, a send never fails for a
    missing configuration field: the only [KeyError]s it can raise are for
    [access_token] in the token endpoint's answer and for [errcode] in the
    message endpoint's. *)
Theorem send_msg_key_errors (st : state t) (message : string)
    (receiver : receiver_arg) (k : string) :
  check_keys (_config (self st)) required_keys = Ok tt ->
  (send_msg message receiver st).1 = Raise (KeyError k) ->
  k = "access_token" \/ k = "errcode".
Proof.
  intros ([corpid Hcorp] & [corpsecret Hsecret] & [agentid Hagent])%check_keys_ok.
  rewrite send_msg_run.
  destruct (join_receiver receiver) as [touser|e] eqn:Hjoin.
  2: { intros [= ->]. apply join_receiver_raise in Hjoin. discriminate. }
  pose proof (get_access_token_frame st "agent_id") as Hframe.
  destruct (token_valid (time_time (ticks (io st))) (_config (self st))) eqn:Hv.
  - destruct (get_access_token_valid st Hv) as (token & _ & _ & Hrun).
    rewrite Hrun. destruct token; simpl; try discriminate.
    rewrite Hagent. intros Hraise.
    destruct (send_raise_inv _ _ _ Hraise) as [_ [|[|[|]]]]; try discriminate.
    right. congruence.
  - rewrite (get_access_token_refresh st corpid corpsecret Hcorp Hsecret Hv) in *.
    unfold refresh_outcome in *.
    destruct (requests_post _ _) as [|[data|]]; try discriminate.
    destruct (py_getitem data "access_token") as [token|e] eqn:Hget.
    + simpl in Hframe. destruct token; simpl; try discriminate.
      rewrite lookup_insert_ne by discriminate.
      rewrite lookup_insert_ne by discriminate. rewrite Hagent.
      intros Hraise.
      destruct (send_raise_inv _ _ _ Hraise) as [_ [|[|[|]]]]; try discriminate.
      right. congruence.
    + intros [= ->]. apply py_getitem_raise in Hget.
      destruct Hget as [|]; [discriminate|]. left. congruence.
Qed.

(** *** The group robot and the provider's answer *)

(** X13: both methods of the group robot hand the provider's answer back: when
    the POST they make is answered by an object with an integer [errcode],
    they return that object, logging it when the code is not 0, and they
    never read the clock. *)
Theorem group_robot_returns_answer (st : state WechatGroupRobot.t) (message : string)
    (mentioned_list mentioned_mobile_list : list string) (res : value) (errcode : Z) :
  (forall rq, requests_post (length (posts (io st))) rq = Response (Some res)) ->
  py_getitem res "errcode" = Ok (VInt errcode) ->
  let out := WechatGroupRobot.send_msg message mentioned_list mentioned_mobile_list st in
  let out' := WechatGroupRobot.send_md message mentioned_list mentioned_mobile_list st in
  out.1 = Ok res /\ out'.1 = Ok res /\
  ticks (io out.2) = ticks (io st) /\ ticks (io out'.2) = ticks (io st) /\
  (errcode = 0%Z -> logs (io out.2) = logs (io st) /\ logs (io out'.2) = logs (io st)) /\
  (errcode <> 0%Z ->
     exists rq rq', logs (io out.2) = logs (io st) ++ [LogRecord CRITICAL rq res] /\
                    logs (io out'.2) = logs (io st) ++ [LogRecord CRITICAL rq' res] /\
                    json rq <> json rq').
Proof.
  intros Hanswer Hcode out out'. subst out out'.
  unfold WechatGroupRobot.send_msg, WechatGroupRobot.send_md, bind, get_self.
  rewrite !send_run, !Hanswer, Hcode. simpl.
  destruct (Z.eqb_spec errcode 0) as [->|Hne]; simpl.
  - repeat (split; [reflexivity|]). split; [auto|]. intros Hne. destruct (Hne eq_refl).
  - repeat (split; [reflexivity|]). split; [intros ->; destruct (Hne eq_refl)|].
    intros _. eexists _, _. split; [reflexivity|]. split; [reflexivity|].
    simpl. intros Heq. discriminate Heq.
Qed.
End Further.

(** ** The further properties at work on the concrete runtimes *)

(** With the network down, [send] raises after one POST and logs nothing. *)
Lemma send_failure_modes_witness :
  let st := Demo.start (WechatGroupRobot.Build "KEY") in
  let out := send (rt := Demo.offline) (Demo.webhook "KEY") st in
  out.1 = Raise RequestException /\
  posts (io out.2) = [Demo.webhook "KEY"] /\ logs (io out.2) = [].
Proof.
  intros st out.
  destruct (send_failure_modes (rt := Demo.offline) st (Demo.webhook "KEY")
              RequestException eq_refl) as (Hposts & Hlogs & _).
  split; [reflexivity|]. split; [exact Hposts|exact Hlogs].
Defined.

(** An [errcode] written as the string ["0"] is returned and logged. *)
Lemma send_any_errcode_witness :
  let st := Demo.start (WechatGroupRobot.Build "KEY") in
  let out := send (rt := Demo.quoting) (Demo.webhook "KEY") st in
  out.1 = Ok (VDict {[ "errcode" := VStr "0" ]}) /\
  logs (io out.2) =
    [LogRecord CRITICAL (Demo.webhook "KEY") (VDict {[ "errcode" := VStr "0" ]})].
Proof.
  intros st out.
  destruct (send_any_errcode (rt := Demo.quoting) st (Demo.webhook "KEY")
              (VDict {[ "errcode" := VStr "0" ]}) (VStr "0") eq_refl eq_refl)
    as (Hres & Hiff & [Hsame|Hlogged]).
  - apply Hiff in Hsame.
    destruct Hsame as [Hs|[Hs|(f & Hs & _)]]; discriminate Hs.
  - split; [exact Hres|exact Hlogged].
Defined.

(** An empty token acquired one second ago is fetched again. *)
Lemma falsy_token_is_refreshed_witness :
  let st := Demo.robot (<["token" := VStr ""]> Demo.cached) 1 in
  posts (io (WechatRobot._get_access_token (rt := Demo.runtime) st).2) =
    [gettoken_request (VStr "corp") (VStr "secret")].
Proof.
  intros st.
  destruct (falsy_token_is_refreshed (rt := Demo.runtime) st
              (VStr "corp") (VStr "secret") eq_refl eq_refl eq_refl) as [_ Hposts].
  exact Hposts.
Defined.

(** The token fetched by a first call is returned by a second one without
    a POST. *)
Lemma refreshed_token_is_reused_witness :
  let st := Demo.robot Demo.config 0 in
  let st2 := (WechatRobot._get_access_token (rt := Demo.runtime) st).2 in
  WechatRobot._get_access_token (rt := Demo.runtime) st2 =
    (Ok (VStr "TOKEN"), ticked st2) /\
  posts (io (WechatRobot._get_access_token (rt := Demo.runtime) st2).2) = posts (io st2).
Proof.
  intros st st2.
  pose proof (refreshed_token_is_reused (rt := Demo.runtime) st st2
                (VStr "corp") (VStr "secret") Demo.token_reply (VStr "TOKEN")
                eq_refl eq_refl eq_refl eq_refl eq_refl eq_refl eq_refl eq_refl
                eq_refl eq_refl) as Hrun.
  split; [exact Hrun|]. rewrite Hrun. reflexivity.
Defined.

(** A list of receivers with a number in it. *)
Lemma send_msg_bad_receiver_witness :
  let st := Demo.robot Demo.config 0 in
  WechatRobot.send_msg (rt := Demo.runtime) "hi"
    (WechatRobot.RIterable [VStr "a"; VInt 5]) st = (Raise TypeError, st).
Proof.
  intros st.
  apply (send_msg_bad_receiver (rt := Demo.runtime) st "hi" [VStr "a"; VInt 5]).
  apply Exists_cons_tl. apply Exists_cons_hd. discriminate.
Defined.

(** A send with a token cached one second ago. *)
Lemma send_msg_with_valid_token_witness :
  let st := Demo.robot Demo.cached 1 in
  let out := WechatRobot.send_msg (rt := Demo.runtime) "hi" (WechatRobot.RStr "a") st in
  (exists rq,
     posts (io out.2) = [rq] /\
     url rq = "https://qyapi.weixin.qq.com/cgi-bin/message/send?access_token=OLD") /\
  self out.2 = self st.
Proof.
  intros st out.
  destruct (send_msg_with_valid_token (rt := Demo.runtime) st "hi" (WechatRobot.RStr "a")
              (VStr "a") (VStr "1000002") "OLD" eq_refl eq_refl eq_refl eq_refl)
    as (_ & Hposts & _ & Hself).
  split; [|exact Hself]. eexists. split; [exact Hposts|reflexivity].
Defined.

(** A cached token that is the number 7. *)
Lemma send_msg_token_not_str_witness :
  let st := Demo.robot (<["token" := VInt 7]> Demo.cached) 1 in
  WechatRobot.send_msg (rt := Demo.runtime) "hi" (WechatRobot.RStr "a") st =
    (Raise TypeError, ticked st).
Proof.
  intros st.
  apply (send_msg_token_not_str (rt := Demo.runtime) st "hi" (WechatRobot.RStr "a")
           (VStr "a") (VInt 7) eq_refl eq_refl eq_refl).
  discriminate.
Defined.

(** A send with an expired token while the network is down. *)
Lemma send_msg_failed_refresh_witness :
  let st := Demo.robot Demo.expired 0 in
  WechatRobot.send_msg (rt := Demo.offline) "hi" (WechatRobot.RStr "a") st =
    (Raise RequestException,
     posted (gettoken_request (VStr "corp") (VStr "secret")) (ticked st)).
Proof.
  intros st.
  apply (send_msg_failed_refresh (rt := Demo.offline) st "hi" (WechatRobot.RStr "a")
           (VStr "a") (VStr "corp") (VStr "secret") RequestException
           eq_refl eq_refl eq_refl eq_refl).
  left. split; reflexivity.
Defined.

(** The same failed send leaves the log empty. *)
Lemma failures_are_not_logged_witness :
  let st := Demo.robot Demo.expired 0 in
  logs (io (WechatRobot.send_msg (rt := Demo.offline) "hi" (WechatRobot.RStr "a") st).2) = [].
Proof.
  intros st.
  destruct (failures_are_not_logged (rt := Demo.offline) st "hi" (WechatRobot.RStr "a"))
    as [_ Hsend].
  exact (Hsend RequestException eq_refl).
Defined.

(** A provider that hands out the number 7 for a token. *)
Lemma send_msg_stores_before_failing_witness :
  let st := Demo.robot Demo.config 0 in
  let out := WechatRobot.send_msg (rt := Demo.numeric) "hi" (WechatRobot.RStr "a") st in
  out.1 = Raise TypeError /\
  WechatRobot._config (self out.2) !! "token" = Some (VInt 7) /\
  posts (io out.2) = [gettoken_request (VStr "corp") (VStr "secret")].
Proof.
  intros st out. subst out.
  rewrite (send_msg_stores_before_failing (rt := Demo.numeric) st "hi"
             (WechatRobot.RStr "a") (VStr "a") (VStr "corp") (VStr "secret")
             (VDict {[ "access_token" := VInt 7 ]}) (VInt 7)
             eq_refl eq_refl eq_refl eq_refl eq_refl eq_refl
             ltac:(discriminate)).
  repeat split; reflexivity.
Defined.

(** Three calls on a robot built from the complete configuration. *)
Lemma constructed_robot_stays_configured_witness :
  let cs := [CallSend "hi" (WechatRobot.RStr "a"); CallToken;
             CallSend "again" (WechatRobot.RIterable [VInt 5])] in
  let st' := run_calls (rt := Demo.runtime) cs (Demo.robot Demo.config 0) in
  WechatRobot._config (self st') !! "agent_id" = Some (VStr "1000002") /\
  WechatRobot.check_keys (WechatRobot._config (self st')) WechatRobot.required_keys = Ok tt.
Proof.
  intros cs st'.
  destruct (constructed_robot_stays_configured (rt := Demo.runtime) Demo.config
              (WechatRobot.Build Demo.config) (World 0 [] []) cs eq_refl)
    as [Hkeys Hcheck].
  split; [|exact Hcheck].
  destruct (Hkeys "agent_id") as [Hsame _].
  - apply required_keys_elem. auto.
  - exact Hsame.
Defined.

(** A provider that answers the token request with an error object: the
    [KeyError] of the send is for [access_token]. *)
Lemma send_msg_key_errors_witness :
  let st := Demo.robot Demo.config 0 in
  (WechatRobot.send_msg (rt := Demo.rejecting) "hi" (WechatRobot.RStr "a") st).1 =
    Raise (KeyError "access_token") /\
  ("access_token" = "access_token" \/ "access_token" = "errcode").
Proof.
  intros st. split; [reflexivity|].
  apply (send_msg_key_errors (rt := Demo.rejecting) st "hi" (WechatRobot.RStr "a")
           "access_token" eq_refl eq_refl).
Defined.

(** A webhook that rejects both kinds of message. *)
Lemma group_robot_returns_answer_witness :
  let st := Demo.start (WechatGroupRobot.Build "KEY") in
  (WechatGroupRobot.send_msg (rt := Demo.rejecting) "hi" [] [] st).1 = Ok Demo.error_reply /\
  (WechatGroupRobot.send_md (rt := Demo.rejecting) "# hi" [] [] st).1 = Ok Demo.error_reply.
Proof.
  intros st.
  destruct (group_robot_returns_answer (rt := Demo.rejecting) st "hi" [] []
              Demo.error_reply 93000 (fun _ => eq_refl) eq_refl) as (Hmsg & _).
  destruct (group_robot_returns_answer (rt := Demo.rejecting) st "# hi" [] []
              Demo.error_reply 93000 (fun _ => eq_refl) eq_refl) as (_ & Hmd & _).
  split; [exact Hmsg|exact Hmd].
Defined.
